(** * The CloudStack driver of kontainer-engine ([acs_driver.go])

    A shallow embedding of the driver and the properties of its lifecycle
    methods.

    Conventions of the embedding.
    - Go packages are Rocq modules: [types], [options], [cloudstack], [fmt].
      Their sources are not part of the driver's file; each definition that
      stands for one of their functions says so in its comment.
    - [int64] is [Z]; Go maps are [gmap]s; a Go map that can be [nil] and
      is told apart from the empty map is an [option (gmap _ _)].
    - [*types.ClusterInfo] is a pointer into a heap of cluster-info records
      ([ptr]); the other pointers, whose identity no method looks at, are
      [option]s, [None] being [nil].
    - [*types.DriverOptions] is a pointer to the option bag, a record of
      four maps. [getStateFromOpts] and [Create] are given on the bag the
      pointer refers to, and [getStateFromOpts_ptr] and [Create_ptr] on the
      pointer itself, which may be [nil].
    - A method is a computation in [Go]: it reads and writes a [World]
      (standard output, the heap, the requests sent to the cloud) and either
      returns or panics.
    - The cloud is the function [DeployVirtualMachine], a variable of the
      section: every statement holds for every behaviour of the cloud. *)

From stdpp Require Import base option strings gmap list fin_maps fin_sets.
From Stdlib Require Import ZArith.

Local Open Scope Z_scope.
Local Open Scope string_scope.

(** ** Built-in Go types *)

(** The interface [error], seen through its only method. *)
Record error : Type := { Error : string }.

(** [context.Context]: no method of the driver reads it. *)
Module context.
Inductive Context : Type := Background | TODO.
End context.

Definition newline : string := String (Ascii.ascii_of_nat 10) EmptyString.

(** ** Package [types] of kontainer-engine *)

Module types.

Definition StringType : string := "string".
Definition BoolType : string := "bool".
Definition IntType : string := "int".
Definition StringSliceType : string := "stringSlice".

(** The metadata record the host owns. [Metadata] is a Go map and may be
    [nil]. *)
Record ClusterInfo : Type := {
  Version : string;
  ServiceAccountToken : string;
  Endpoint : string;
  Username : string;
  Password : string;
  RootCaCertificate : string;
  ClientCertificate : string;
  ClientKey : string;
  NodeCount : Z;
  Metadata : option (gmap string string);
  Status : string;
  CreateError : string
}.

(** The option bag: one map per type of option. *)
Record DriverOptions : Type := {
  BoolOptions : gmap string bool;
  StringOptions : gmap string string;
  IntOptions : gmap string Z;
  StringSliceOptions : gmap string (list string)
}.

Record Flag : Type := { Type_ : string; Usage : string }.

Record DriverFlags : Type := { Options : gmap string Flag }.

(** The field of [Capabilities] is called [Capabilities] in Go. *)
Record Capabilities : Type := { CapabilitiesMap : gmap Z bool }.

(** The capability constants, an [iota] enumeration. *)
Definition GetVersionCapability : Z := 0.
Definition SetVersionCapability : Z := 1.
Definition GetClusterSizeCapability : Z := 2.
Definition SetClusterSizeCapability : Z := 3.

(** Modelled from the spec: [AddCapability] of the imported package
    [types], which marks one capability as advertised:
    [c.Capabilities[cap] = true]. *)
Definition AddCapability (c : Capabilities) (cap : Z) : Capabilities :=
  {| CapabilitiesMap := <[cap := true]> (CapabilitiesMap c) |}.

Record NodeCount_ : Type := { Count : Z }.

(** [KubernetesVersion]; its field is called [Version] in Go. *)
Record KubernetesVersion : Type := { Version_ : string }.

End types.

(** ** Package [options] of kontainer-engine *)

Module options.

(** What [GetValueFromDriverOptions] returns: an [interface{}]. *)
Inductive value : Type :=
| VInt (z : Z)
| VString (s : string)
| VBool (b : bool)
| VStringSlice (l : list string)
| VNil.

(** [for _, key := range keys { if value, ok := m[key]; ok { return value } }]:
    the value of the first key of [keys] that the map holds. *)
Fixpoint firstPresent {V : Type} (m : gmap string V) (keys : list string)
  : option V :=
  match keys with
  | [] => None
  | key :: rest =>
      match m !! key with
      | Some v => Some v
      | None => firstPresent m rest
      end
  end.

(** Modelled from the spec: [GetValueFromDriverOptions] of the imported
    package [options], the option bag's lookup by name with a declared
    type and optional alternate names. The value of the first name
    present in the map of that type, and the zero value of the type when
    none is. *)
Definition GetValueFromDriverOptions (driverOptions : types.DriverOptions)
    (optionType : string) (keys : list string) : value :=
  if decide (optionType = types.IntType) then
    match firstPresent (types.IntOptions driverOptions) keys with
    | Some v => VInt v
    | None => VInt 0
    end
  else if decide (optionType = types.StringType) then
    match firstPresent (types.StringOptions driverOptions) keys with
    | Some v => VString v
    | None => VString ""
    end
  else if decide (optionType = types.BoolType) then
    match firstPresent (types.BoolOptions driverOptions) keys with
    | Some v => VBool v
    | None => VBool false
    end
  else if decide (optionType = types.StringSliceType) then
    match firstPresent (types.StringSliceOptions driverOptions) keys with
    | Some v => VStringSlice v
    | None => VStringSlice []
    end
  else VNil.

End options.

(** ** Package [cloudstack] of go-cloudstack *)

Module cloudstack.

(** The client handle. The HTTP client inside it is reduced to the one
    setting the constructor derives from its arguments,
    [InsecureSkipVerify]. *)
Record CloudStackClient : Type := {
  baseURL : string;
  apiKey : string;
  secret : string;
  async : bool;
  InsecureSkipVerify : bool
}.

(** Modelled from the spec: [NewClient] of the imported package
    [cloudstack], the client construction call taking endpoint, access
    key, secret key and the TLS-verify flag. It builds the handle locally;
    certificates are checked exactly when [verifyssl] is set. *)
Definition NewClient (apiurl apikey secretkey : string) (verifyssl : bool)
  : CloudStackClient :=
  {| baseURL := apiurl;
     apiKey := apikey;
     secret := secretkey;
     async := false;
     InsecureSkipVerify := negb verifyssl |}.

(** A value of the parameter map [map[string]interface{}]. *)
Inductive param : Type :=
| PString (s : string)
| PStrings (l : list string).

(** [DeployVirtualMachineParams]: a struct around the map [p], which is
    [nil] in the zero value. *)
Record DeployVirtualMachineParams : Type := {
  p : option (gmap string param)
}.

(** [if p.p == nil { p.p = make(map) }; p.p[k] = v] *)
Definition set (k : string) (v : param) (q : DeployVirtualMachineParams)
  : DeployVirtualMachineParams :=
  match p q with
  | None => {| p := Some (<[k := v]> ∅) |}
  | Some m => {| p := Some (<[k := v]> m) |}
  end.

(** Modelled from the spec: the request constructor of the imported
    package [cloudstack], taking service-offering id, template id and
    zone id. *)
Definition NewDeployVirtualMachineParams
    (serviceofferingid templateid zoneid : string)
  : DeployVirtualMachineParams :=
  {| p := Some (<["zoneid" := PString zoneid]>
               (<["templateid" := PString templateid]>
               (<["serviceofferingid" := PString serviceofferingid]> ∅))) |}.

(** Modelled from the spec: the settable fields of the request. *)
Definition SetDisplayname (q : DeployVirtualMachineParams) (v : string) :=
  set "displayname" (PString v) q.
Definition SetName (q : DeployVirtualMachineParams) (v : string) :=
  set "name" (PString v) q.
Definition SetNetworkids (q : DeployVirtualMachineParams) (v : list string) :=
  set "networkids" (PStrings v) q.
Definition SetProjectid (q : DeployVirtualMachineParams) (v : string) :=
  set "projectid" (PString v) q.
Definition SetServiceofferingid (q : DeployVirtualMachineParams) (v : string) :=
  set "serviceofferingid" (PString v) q.
Definition SetTemplateid (q : DeployVirtualMachineParams) (v : string) :=
  set "templateid" (PString v) q.
Definition SetZoneid (q : DeployVirtualMachineParams) (v : string) :=
  set "zoneid" (PString v) q.

(** The instance descriptor the provider answers with; the driver reads
    none of its fields. *)
Record DeployVirtualMachineResponse : Type := {
  Id : string;
  Name : string;
  Displayname : string;
  State : string
}.

End cloudstack.

(** ** The world a method runs in *)

Definition loc : Type := positive.

(** [*types.ClusterInfo]: [None] is [nil]. *)
Definition ptr : Type := option loc.

Record World : Type := {
  stdout : string;
  heap : gmap loc types.ClusterInfo;
  requests : list (cloudstack.CloudStackClient * cloudstack.DeployVirtualMachineParams)
}.

Inductive outcome (A : Type) : Type :=
| Returned (a : A) (w : World)
| Panicked (msg : string).
Arguments Returned {A} a w.
Arguments Panicked {A} msg.

Definition Go (A : Type) : Type := World → outcome A.

Global Instance Go_ret : MRet Go := λ A a w, Returned a w.

Global Instance Go_bind : MBind Go := λ A B f m w,
  match m w with
  | Returned a w' => f a w'
  | Panicked msg => Panicked msg
  end.

Definition panic {A : Type} (msg : string) : Go A := λ _, Panicked msg.

(** [&T{...}] for a cluster-info record: a cell the heap did not have. *)
Definition new (v : types.ClusterInfo) : Go loc := λ w,
  let l := fresh (dom (heap w)) in
  Returned l {| stdout := stdout w;
                heap := <[l := v]> (heap w);
                requests := requests w |}.

(** The type assertions [.(string)] and [.(int64)] on an [interface{}]. *)
Definition assertString (v : options.value) : Go string :=
  match v with
  | options.VString s => mret s
  | _ => panic "interface conversion: interface {} is not string"
  end.

Definition assertInt64 (v : options.value) : Go Z :=
  match v with
  | options.VInt z => mret z
  | _ => panic "interface conversion: interface {} is not int64"
  end.

(** Reading through a pointer that may be [nil]. *)
Definition deref {A : Type} (x : option A) : Go A :=
  match x with
  | Some a => mret a
  | None => panic "invalid memory address or nil pointer dereference"
  end.

(** ** Package [fmt] *)

Module fmt.

(** [fmt.Errorf] with a format that has no verb. *)
Definition Errorf (format : string) : error := {| Error := format |}.

(** [fmt.Printf], given the text after formatting. *)
Definition Printf (text : string) : Go unit := λ w,
  Returned tt {| stdout := stdout w +:+ text;
                 heap := heap w;
                 requests := requests w |}.

End fmt.

(** ** The driver's data *)

(** Config - Cloudstack Configurations *)
Record Config : Type := {
  EndPoint : string;
  Access : string;
  Secret : string
}.

(** AcsSettings - Basic configs to Cloudstack. [Config_] is the embedded
    struct [Config]. *)
Record AcsSettings : Type := {
  SSHKeyPair : string;
  ProjectID : string;
  UsePrivateIP : bool;
  ServiceOffering : string;
  TemplateID : string;
  ZoneID : string;
  NetworkID : string;
  UserData : string;
  Config_ : Config
}.

(** [AcsSettings_] is the embedded struct [AcsSettings]. *)
Record state : Type := {
  ClusterName : string;
  Description : string;
  InitialNodeCount : Z;
  AcsSettings_ : AcsSettings;
  ClusterInfo : types.ClusterInfo
}.

(** ACSDriver - Initiate Capabilities *)
Record ACSDriver : Type := {
  driverCapabilities : types.Capabilities
}.

(** *** Zero values *)

Definition zeroClusterInfo : types.ClusterInfo :=
  {| types.Version := ""; types.ServiceAccountToken := "";
     types.Endpoint := ""; types.Username := ""; types.Password := "";
     types.RootCaCertificate := ""; types.ClientCertificate := "";
     types.ClientKey := ""; types.NodeCount := 0; types.Metadata := None;
     types.Status := ""; types.CreateError := "" |}.

Definition zeroConfig : Config :=
  {| EndPoint := ""; Access := ""; Secret := "" |}.

Definition zeroAcsSettings : AcsSettings :=
  {| SSHKeyPair := ""; ProjectID := ""; UsePrivateIP := false;
     ServiceOffering := ""; TemplateID := ""; ZoneID := ""; NetworkID := "";
     UserData := ""; Config_ := zeroConfig |}.

(** *** Assignments to a field *)

Definition withMetadata (m : option (gmap string string))
    (i : types.ClusterInfo) : types.ClusterInfo :=
  {| types.Version := types.Version i;
     types.ServiceAccountToken := types.ServiceAccountToken i;
     types.Endpoint := types.Endpoint i; types.Username := types.Username i;
     types.Password := types.Password i;
     types.RootCaCertificate := types.RootCaCertificate i;
     types.ClientCertificate := types.ClientCertificate i;
     types.ClientKey := types.ClientKey i; types.NodeCount := types.NodeCount i;
     types.Metadata := m;
     types.Status := types.Status i; types.CreateError := types.CreateError i |}.

Definition withConfig (f : Config → Config) (c : AcsSettings) : AcsSettings :=
  {| SSHKeyPair := SSHKeyPair c; ProjectID := ProjectID c;
     UsePrivateIP := UsePrivateIP c; ServiceOffering := ServiceOffering c;
     TemplateID := TemplateID c; ZoneID := ZoneID c; NetworkID := NetworkID c;
     UserData := UserData c; Config_ := f (Config_ c) |}.

Definition withAcsSettings (f : AcsSettings → AcsSettings) (d : state) : state :=
  {| ClusterName := ClusterName d; Description := Description d;
     InitialNodeCount := InitialNodeCount d;
     AcsSettings_ := f (AcsSettings_ d); ClusterInfo := ClusterInfo d |}.

Definition setClusterName (v : string) (d : state) : state :=
  {| ClusterName := v; Description := Description d;
     InitialNodeCount := InitialNodeCount d;
     AcsSettings_ := AcsSettings_ d; ClusterInfo := ClusterInfo d |}.

Definition setDescription (v : string) (d : state) : state :=
  {| ClusterName := ClusterName d; Description := v;
     InitialNodeCount := InitialNodeCount d;
     AcsSettings_ := AcsSettings_ d; ClusterInfo := ClusterInfo d |}.

Definition setInitialNodeCount (v : Z) (d : state) : state :=
  {| ClusterName := ClusterName d; Description := Description d;
     InitialNodeCount := v;
     AcsSettings_ := AcsSettings_ d; ClusterInfo := ClusterInfo d |}.

Definition setEndPoint (v : string) : state → state :=
  withAcsSettings (withConfig (λ k,
    {| EndPoint := v; Access := Access k; Secret := Secret k |})).

Definition setAccess (v : string) : state → state :=
  withAcsSettings (withConfig (λ k,
    {| EndPoint := EndPoint k; Access := v; Secret := Secret k |})).

Definition setSecret (v : string) : state → state :=
  withAcsSettings (withConfig (λ k,
    {| EndPoint := EndPoint k; Access := Access k; Secret := v |})).

(** ** The driver *)

(** NewDriver implement a driver to connect *)
Definition NewDriver : ACSDriver :=
  let driver :=
    {| driverCapabilities := {| types.CapabilitiesMap := ∅ |} |} in
  let driver := {| driverCapabilities :=
    types.AddCapability (driverCapabilities driver) types.GetVersionCapability |} in
  let driver := {| driverCapabilities :=
    types.AddCapability (driverCapabilities driver) types.SetVersionCapability |} in
  let driver := {| driverCapabilities :=
    types.AddCapability (driverCapabilities driver) types.GetClusterSizeCapability |} in
  let driver := {| driverCapabilities :=
    types.AddCapability (driverCapabilities driver) types.SetClusterSizeCapability |} in
  driver.

(** GetDriverCreateOptions Get Parameter in rancher UI. *)
Definition GetDriverCreateOptions (ctx : context.Context)
  : Go (types.DriverFlags * option error) :=
  let driverFlag := (∅ : gmap string types.Flag) in
  let driverFlag := <["cluster-name" :=
    {| types.Type_ := types.StringType;
       types.Usage := "Cluster name to be displayed in Rancher UI" |}]> driverFlag in
  let driverFlag := <["cloudstack-endpoint" :=
    {| types.Type_ := types.StringType;
       types.Usage := "Define Cloudstack API endpoint" |}]> driverFlag in
  let driverFlag := <["cloudstack-access" :=
    {| types.Type_ := types.StringType;
       types.Usage := "Access Key to authenticate in cloudstack" |}]> driverFlag in
  let driverFlag := <["cloudstack-secret" :=
    {| types.Type_ := types.StringType;
       types.Usage := "Secret Key to authenticate in cloudstack" |}]> driverFlag in
  let driverFlag := <["description" :=
    {| types.Type_ := types.StringType;
       types.Usage := "Description to project" |}]> driverFlag in
  mret ({| types.Options := driverFlag |}, None).

(** GetDriverUpdateOptions Default options to be used *)
Definition GetDriverUpdateOptions (ctx : context.Context)
  : Go (types.DriverFlags * option error) :=
  let driverFlag := (∅ : gmap string types.Flag) in
  let driverFlag := <["node-count" :=
    {| types.Type_ := types.IntType;
       types.Usage := "Number of nodes" |}]> driverFlag in
  mret ({| types.Options := driverFlag |}, None).

Definition getStateFromOpts (driverOptions : types.DriverOptions)
  : Go (state * option error) :=
  let d :=
    {| ClusterName := ""; Description := ""; InitialNodeCount := 0;
       AcsSettings_ := zeroAcsSettings;
       ClusterInfo := withMetadata (Some ∅) zeroClusterInfo |} in
  v ← assertString (options.GetValueFromDriverOptions driverOptions
         types.StringType ["cluster-name"; "ClusterName"]);
  let d := setClusterName v d in
  v ← assertString (options.GetValueFromDriverOptions driverOptions
         types.StringType ["description"; "Description"]);
  let d := setDescription v d in
  v ← assertString (options.GetValueFromDriverOptions driverOptions
         types.StringType ["cloudstack-endpoint"; "CloudstackEndPoint"]);
  let d := setEndPoint v d in
  v ← assertString (options.GetValueFromDriverOptions driverOptions
         types.StringType ["cloudstack-access"]);
  let d := setAccess v d in
  v ← assertString (options.GetValueFromDriverOptions driverOptions
         types.StringType ["cloudstack-secret"]);
  let d := setSecret v d in
  v ← assertInt64 (options.GetValueFromDriverOptions driverOptions
         types.IntType ["node-count"; "InitialNodeCount"]);
  let d := setInitialNodeCount v d in
  mret (d, None).

(** *** The option bag behind its pointer *)

(** The bag whose four maps are [nil]. *)
Definition zeroDriverOptions : types.DriverOptions :=
  {| types.BoolOptions := ∅; types.StringOptions := ∅;
     types.IntOptions := ∅; types.StringSliceOptions := ∅ |}.

(** Modelled from the spec: [GetValueFromDriverOptions] on the pointer it
    takes. For a type it knows it reads [driverOptions.StringOptions[key]]
    (or the map of the type) at the first key, through the pointer; with no
    key, or a type it does not know, it reads nothing. *)
Definition GetValueFromDriverOptions_ptr
    (driverOptions : option types.DriverOptions) (optionType : string)
    (keys : list string) : Go options.value :=
  match driverOptions with
  | Some bag => mret (options.GetValueFromDriverOptions bag optionType keys)
  | None =>
      match keys with
      | [] =>
          mret (options.GetValueFromDriverOptions zeroDriverOptions
                  optionType [])
      | _ :: _ =>
          if bool_decide (optionType ∈ [types.IntType; types.StringType;
                                        types.BoolType; types.StringSliceType])
          then panic "invalid memory address or nil pointer dereference"
          else mret options.VNil
      end
  end.

(** [getStateFromOpts] on the pointer the host passes. *)
Definition getStateFromOpts_ptr (driverOptions : option types.DriverOptions)
  : Go (state * option error) :=
  let d :=
    {| ClusterName := ""; Description := ""; InitialNodeCount := 0;
       AcsSettings_ := zeroAcsSettings;
       ClusterInfo := withMetadata (Some ∅) zeroClusterInfo |} in
  v ← GetValueFromDriverOptions_ptr driverOptions
         types.StringType ["cluster-name"; "ClusterName"];
  v ← assertString v;
  let d := setClusterName v d in
  v ← GetValueFromDriverOptions_ptr driverOptions
         types.StringType ["description"; "Description"];
  v ← assertString v;
  let d := setDescription v d in
  v ← GetValueFromDriverOptions_ptr driverOptions
         types.StringType ["cloudstack-endpoint"; "CloudstackEndPoint"];
  v ← assertString v;
  let d := setEndPoint v d in
  v ← GetValueFromDriverOptions_ptr driverOptions
         types.StringType ["cloudstack-access"];
  v ← assertString v;
  let d := setAccess v d in
  v ← GetValueFromDriverOptions_ptr driverOptions
         types.StringType ["cloudstack-secret"];
  v ← assertString v;
  let d := setSecret v d in
  v ← GetValueFromDriverOptions_ptr driverOptions
         types.IntType ["node-count"; "InitialNodeCount"];
  v ← assertInt64 v;
  let d := setInitialNodeCount v d in
  mret (d, None).

Definition acsConn (c : AcsSettings)
  : option cloudstack.CloudStackClient * option error :=
  let cloudstackConnection :=
    cloudstack.NewClient (EndPoint (Config_ c)) (Access (Config_ c))
                         (Secret (Config_ c)) false in
  (Some cloudstackConnection, None).

Section Driver.

(** The cloud: what the API call [DeployVirtualMachine] of a client
    answers to a request, an instance descriptor (or [nil]) and an error
    (or [nil]). *)
Variable DeployVirtualMachine :
  cloudstack.CloudStackClient → cloudstack.DeployVirtualMachineParams →
  option cloudstack.DeployVirtualMachineResponse * option error.

(** The call itself: the request goes out and the cloud answers. *)
Definition callDeployVirtualMachine (cs : cloudstack.CloudStackClient)
    (q : cloudstack.DeployVirtualMachineParams)
  : Go (option cloudstack.DeployVirtualMachineResponse * option error) :=
  λ w, Returned (DeployVirtualMachine cs q)
         {| stdout := stdout w;
            heap := heap w;
            requests := requests w ++ [(cs, q)] |}.

Definition createInstance (c : AcsSettings) (s : state)
  : Go (option cloudstack.DeployVirtualMachineResponse * option error) :=
  let '(cs, err) := acsConn c in
  match err with
  | Some e => mret (None, Some e)
  | None =>
      cs ← deref cs;
      let q := cloudstack.NewDeployVirtualMachineParams
                 (ServiceOffering c) (TemplateID c) (ZoneID c) in
      let q := cloudstack.SetDisplayname q (ClusterName s) in
      let q := cloudstack.SetName q (ClusterName s) in
      let q := cloudstack.SetNetworkids q [NetworkID c] in
      let q := cloudstack.SetProjectid q (ProjectID c) in
      let q := cloudstack.SetServiceofferingid q (ServiceOffering c) in
      let q := cloudstack.SetTemplateid q (TemplateID c) in
      let q := cloudstack.SetZoneid q (ZoneID c) in
      '(vm, err) ← callDeployVirtualMachine cs q;
      _ ← match err with
          | Some e =>
              fmt.Printf ("Error creating the new instance: " +:+ Error e
                          +:+ newline)
          | None => fmt.Printf "Success create instances"
          end;
      mret (vm, None)
  end.

(** Create effective create infra in cloudstack *)
Definition Create (ctx : context.Context) (opts : types.DriverOptions)
    (_ : ptr) : Go (ptr * option error) :=
  '(state, err) ← getStateFromOpts opts;
  match err with
  | Some e => mret (None, Some e)
  | None =>
      info ← new zeroClusterInfo;
      '(_, err) ← createInstance (AcsSettings_ state) state;
      match err with
      | Some e => mret (Some info, Some e)
      | None => mret (Some info, None)
      end
  end.

(** [Create] on the pointer to the bag the host passes. *)
Definition Create_ptr (ctx : context.Context)
    (opts : option types.DriverOptions) (_ : ptr) : Go (ptr * option error) :=
  '(state, err) ← getStateFromOpts_ptr opts;
  match err with
  | Some e => mret (None, Some e)
  | None =>
      info ← new zeroClusterInfo;
      '(_, err) ← createInstance (AcsSettings_ state) state;
      match err with
      | Some e => mret (Some info, Some e)
      | None => mret (Some info, None)
      end
  end.

(** Update Will be update infra *)
Definition Update (ctx : context.Context) (info : ptr)
    (opts : types.DriverOptions) : Go (ptr * option error) :=
  mret (info, None).

(** PostCheck confirm settings after create *)
Definition PostCheck (ctx : context.Context) (info : ptr)
  : Go (ptr * option error) :=
  mret (info, None).

(** Remove delete provider cluster *)
Definition Remove (ctx : context.Context) (info : ptr) : Go (option error) :=
  mret (Some (fmt.Errorf "Not implemented")).

(** SetClusterSize setup the cluster size *)
Definition SetClusterSize (ctx : context.Context) (info : ptr)
    (count : option types.NodeCount_) : Go (option error) :=
  mret (Some (fmt.Errorf "Not implemented")).

(** GetCapabilities Get information about k8s *)
Definition GetCapabilities (ctx : context.Context)
  : Go (types.Capabilities * option error) :=
  mret ({| types.CapabilitiesMap := ∅ |}, None).

(** ETCDSave generate backup in ETCD cluster *)
Definition ETCDSave (ctx : context.Context) (clusterInfo : ptr)
    (opts : types.DriverOptions) (snapshotName : string) : Go (option error) :=
  mret (Some (fmt.Errorf "Not implemented")).

(** ETCDRestore Implement restore options *)
Definition ETCDRestore (ctx : context.Context) (clusterInfo : ptr)
    (opts : types.DriverOptions) (snapshotName : string) : Go (option error) :=
  mret None.

(** ETCDRemoveSnapshot Remove snapshot *)
Definition ETCDRemoveSnapshot (ctx : context.Context) (clusterInfo : ptr)
    (opts : types.DriverOptions) (snapshotName : string) : Go (option error) :=
  mret (Some (fmt.Errorf "Not implemented")).

End Driver.

(** ** Package [cloudstack], the project service *)

Module cloudstack_project.

(** [CreateProjectParams]: a struct around the parameter map, as the
    request of a deployment is. *)
Record CreateProjectParams : Type := {
  p : option (gmap string cloudstack.param)
}.

(** Modelled from the spec: the request constructor of the imported
    package [cloudstack] for a project, taking the display text and the
    name. *)
Definition NewCreateProjectParams (displaytext name : string)
  : CreateProjectParams :=
  {| p := Some (<["name" := cloudstack.PString name]>
               (<["displaytext" := cloudstack.PString displaytext]> ∅)) |}.

(** The project descriptor the provider answers with; the driver reads none
    of its fields. *)
Record CreateProjectResponse : Type := {
  Id : string;
  Name : string;
  Displaytext : string
}.

End cloudstack_project.

(** ** The rest of the driver *)

Section DriverRest.

(** The cloud again: what the API call [CreateProject] of a client answers.
    The world keeps the deploy requests only. *)
Variable CreateProject :
  cloudstack.CloudStackClient → cloudstack_project.CreateProjectParams →
  option cloudstack_project.CreateProjectResponse * option error.

(** [types.K8SCapabilities], of which the driver builds the zero value
    only. *)
Variable K8SCapabilities : Type.
Variable zeroK8SCapabilities : K8SCapabilities.

Definition callCreateProject (cs : cloudstack.CloudStackClient)
    (q : cloudstack_project.CreateProjectParams)
  : Go (option cloudstack_project.CreateProjectResponse * option error) :=
  λ w, Returned (CreateProject cs q) w.

Definition createProject (c : AcsSettings) (s : state)
  : Go (option cloudstack_project.CreateProjectResponse * option error) :=
  let descriptionText := "aa" in
  let displayName := ClusterName s in
  let '(cs, err) := acsConn c in
  match err with
  | Some e => mret (None, Some e)
  | None =>
      cs ← deref cs;
      let project :=
        cloudstack_project.NewCreateProjectParams descriptionText displayName in
      '(p, err) ← callCreateProject cs project;
      match err with
      | Some e => mret (None, Some e)
      | None => mret (p, None)
      end
  end.

(** GetVersion *)
Definition GetVersion (ctx : context.Context) (info : ptr)
  : Go (option types.KubernetesVersion * option error) :=
  let k8s := Some {| types.Version_ := "" |} in
  mret (k8s, None).

(** SetVersion define version to be used *)
Definition SetVersion (ctx : context.Context) (info : ptr)
    (version : option types.KubernetesVersion) : Go (option error) :=
  mret None.

(** GetClusterSize Consulting size of the cluster *)
Definition GetClusterSize (ctx : context.Context) (info : ptr)
  : Go (option types.NodeCount_ * option error) :=
  let count := Some {| types.Count := 0 |} in
  mret (count, None).

(** RemoveLegacyServiceAccount Init cleanup *)
Definition RemoveLegacyServiceAccount (ctx : context.Context) (info : ptr)
  : Go (option error) :=
  mret None.

(** GetK8SCapabilities check cluster options *)
Definition GetK8SCapabilities (ctx : context.Context)
    (options : types.DriverOptions)
  : Go (option K8SCapabilities * option error) :=
  let k8s := Some zeroK8SCapabilities in
  mret (k8s, None).

End DriverRest.

(** ** The vocabulary of the statements *)

(** The value an option bag holds for a list of names, or the zero value. *)
Definition stringOption (opts : types.DriverOptions) (keys : list string)
  : string :=
  default "" (options.firstPresent (types.StringOptions opts) keys).

Definition intOption (opts : types.DriverOptions) (keys : list string) : Z :=
  default 0 (options.firstPresent (types.IntOptions opts) keys).

(** The settings read from an option bag, field by field. *)
Definition settingsOf (opts : types.DriverOptions) : state :=
  {| ClusterName := stringOption opts ["cluster-name"; "ClusterName"];
     Description := stringOption opts ["description"; "Description"];
     InitialNodeCount := intOption opts ["node-count"; "InitialNodeCount"];
     AcsSettings_ :=
       {| SSHKeyPair := ""; ProjectID := ""; UsePrivateIP := false;
          ServiceOffering := ""; TemplateID := ""; ZoneID := "";
          NetworkID := ""; UserData := "";
          Config_ :=
            {| EndPoint :=
                 stringOption opts ["cloudstack-endpoint"; "CloudstackEndPoint"];
               Access := stringOption opts ["cloudstack-access"];
               Secret := stringOption opts ["cloudstack-secret"] |} |};
     ClusterInfo := withMetadata (Some ∅) zeroClusterInfo |}.

(** The deploy request the specification describes: name and display name,
    the three ids, the project id and the one-element list of network
    ids. *)
Definition deployRequest (name offering template zone network project : string)
  : cloudstack.DeployVirtualMachineParams :=
  {| cloudstack.p := Some (list_to_map
       [ ("displayname", cloudstack.PString name);
         ("name", cloudstack.PString name);
         ("networkids", cloudstack.PStrings [network]);
         ("projectid", cloudstack.PString project);
         ("serviceofferingid", cloudstack.PString offering);
         ("templateid", cloudstack.PString template);
         ("zoneid", cloudstack.PString zone) ]) |}.

(** The request of a settings value. *)
Definition requestOf (c : AcsSettings) (s : state)
  : cloudstack.DeployVirtualMachineParams :=
  deployRequest (ClusterName s) (ServiceOffering c) (TemplateID c) (ZoneID c)
                (NetworkID c) (ProjectID c).

(** The client of a settings value. *)
Definition clientOf (c : AcsSettings) : cloudstack.CloudStackClient :=
  {| cloudstack.baseURL := EndPoint (Config_ c);
     cloudstack.apiKey := Access (Config_ c);
     cloudstack.secret := Secret (Config_ c);
     cloudstack.async := false;
     cloudstack.InsecureSkipVerify := true |}.

(** What [createInstance] prints for an answer of the cloud. *)
Definition printed (err : option error) : string :=
  match err with
  | Some e => "Error creating the new instance: " +:+ Error e +:+ newline
  | None => "Success create instances"
  end.

(** The world after one deploy call of [createInstance]. *)
Definition afterDeploy (c : AcsSettings) (s : state) (err : option error)
    (w : World) : World :=
  {| stdout := stdout w +:+ printed err;
     heap := heap w;
     requests := requests w ++ [(clientOf c, requestOf c s)] |}.

(** The fields [getStateFromOpts] reads, with the names it looks up. *)
Inductive field : Type :=
| FClusterName | FDescription | FEndPoint | FAccess | FSecret
| FInitialNodeCount.

Definition optionName (f : field) : string :=
  match f with
  | FClusterName => "cluster-name"
  | FDescription => "description"
  | FEndPoint => "cloudstack-endpoint"
  | FAccess => "cloudstack-access"
  | FSecret => "cloudstack-secret"
  | FInitialNodeCount => "node-count"
  end.

Definition alternateNames (f : field) : list string :=
  match f with
  | FClusterName => ["ClusterName"]
  | FDescription => ["Description"]
  | FEndPoint => ["CloudstackEndPoint"]
  | FAccess => []
  | FSecret => []
  | FInitialNodeCount => ["InitialNodeCount"]
  end.

(** The bag has no value of the field's type under the name. *)
Definition lacks (opts : types.DriverOptions) (f : field) (name : string)
  : Prop :=
  match f with
  | FInitialNodeCount => types.IntOptions opts !! name = None
  | _ => types.StringOptions opts !! name = None
  end.

(** The field holds the zero value of its type. *)
Definition isZero (f : field) (d : state) : Prop :=
  match f with
  | FClusterName => ClusterName d = ""
  | FDescription => Description d = ""
  | FEndPoint => EndPoint (Config_ (AcsSettings_ d)) = ""
  | FAccess => Access (Config_ (AcsSettings_ d)) = ""
  | FSecret => Secret (Config_ (AcsSettings_ d)) = ""
  | FInitialNodeCount => InitialNodeCount d = 0
  end.

Definition emptyWorld : World :=
  {| stdout := ""; heap := ∅; requests := [] |}.

(** The bag of the scenario: four string options and no node count. *)
Definition demoOptions : types.DriverOptions :=
  {| types.BoolOptions := ∅;
     types.StringOptions :=
       <["cluster-name" := "demo"]>
       (<["cloudstack-endpoint" := "http://cs.local"]>
       (<["cloudstack-access" := "AK"]>
       (<["cloudstack-secret" := "SK"]> ∅)));
     types.IntOptions := ∅;
     types.StringSliceOptions := ∅ |}.

(** A bag that names the cluster under the alternate name only. *)
Definition legacyOptions : types.DriverOptions :=
  {| types.BoolOptions := ∅;
     types.StringOptions := <["ClusterName" := "legacy"]> ∅;
     types.IntOptions := ∅;
     types.StringSliceOptions := ∅ |}.

(** A cloud that refuses every request. *)
Definition refusingCloud (cs : cloudstack.CloudStackClient)
    (q : cloudstack.DeployVirtualMachineParams)
  : option cloudstack.DeployVirtualMachineResponse * option error :=
  (None, Some {| Error := "zone not found" |}).

(** The names [getStateFromOpts] looks a field up under, in its order. *)
Definition names (f : field) : list string := optionName f :: alternateNames f.


(** What the bag holds for a field under a name, in the map of the field's
    type. *)
Definition held (opts : types.DriverOptions) (f : field) (name : string)
  : option options.value :=
  match f with
  | FInitialNodeCount => options.VInt <$> types.IntOptions opts !! name
  | _ => options.VString <$> types.StringOptions opts !! name
  end.

(** The value of a field of the state. *)
Definition readField (f : field) (d : state) : options.value :=
  match f with
  | FClusterName => options.VString (ClusterName d)
  | FDescription => options.VString (Description d)
  | FEndPoint => options.VString (EndPoint (Config_ (AcsSettings_ d)))
  | FAccess => options.VString (Access (Config_ (AcsSettings_ d)))
  | FSecret => options.VString (Secret (Config_ (AcsSettings_ d)))
  | FInitialNodeCount => options.VInt (InitialNodeCount d)
  end.

(** The names of the bag a [Create] call depends on. *)
Definition namesOfCreate : list string :=
  names FClusterName ++ names FEndPoint ++ names FAccess ++ names FSecret.

(** A cloud that accepts every request. *)
Definition acceptingCloud (cs : cloudstack.CloudStackClient)
    (q : cloudstack.DeployVirtualMachineParams)
  : option cloudstack.DeployVirtualMachineResponse * option error :=
  (Some {| cloudstack.Id := "i-1"; cloudstack.Name := "vm";
           cloudstack.Displayname := "vm"; cloudstack.State := "Running" |},
   None).

(** A cloud that answers a project request with a descriptor and an
    error. *)
Definition refusingProjects (cs : cloudstack.CloudStackClient)
    (q : cloudstack_project.CreateProjectParams)
  : option cloudstack_project.CreateProjectResponse * option error :=
  (Some {| cloudstack_project.Id := "p-1"; cloudstack_project.Name := "demo";
           cloudstack_project.Displaytext := "aa" |},
   Some {| Error := "quota exceeded" |}).

(** A bag with a node count under both names, and a description. *)
Definition sizedOptions : types.DriverOptions :=
  {| types.BoolOptions := ∅;
     types.StringOptions :=
       <["description" := "three nodes"]> (types.StringOptions demoOptions);
     types.IntOptions :=
       <["node-count" := 3]> (<["InitialNodeCount" := 5]> ∅);
     types.StringSliceOptions := ∅ |}.

(** The bag of the scenario with options the driver does not know. *)
Definition noisyOptions : types.DriverOptions :=
  {| types.BoolOptions := <["use-private-ip" := true]> ∅;
     types.StringOptions :=
       <["zone-id" := "z1"]> (types.StringOptions demoOptions);
     types.IntOptions := <["cluster-name" := 7]> ∅;
     types.StringSliceOptions := <["network-ids" := ["n1"; "n2"]]> ∅ |}.

(** Settings with CloudStack-specific fields. *)
Definition cloudSettings (key data : string) (private : bool) : AcsSettings :=
  {| SSHKeyPair := key; ProjectID := "p1"; UsePrivateIP := private;
     ServiceOffering := "small"; TemplateID := "t1"; ZoneID := "z1";
     NetworkID := "n1"; UserData := data;
     Config_ := {| EndPoint := "http://cs.local"; Access := "AK";
                   Secret := "SK" |} |}.

(** A world whose heap has one cell. *)
Definition oneCellWorld : World :=
  {| stdout := "";
     heap := <[1%positive := withMetadata (Some ∅) zeroClusterInfo]> ∅;
     requests := [] |}.

(** A cloud that answers a project request with a descriptor. *)
Definition acceptingProjects (cs : cloudstack.CloudStackClient)
    (q : cloudstack_project.CreateProjectParams)
  : option cloudstack_project.CreateProjectResponse * option error :=
  (Some {| cloudstack_project.Id := "p-1"; cloudstack_project.Name := "demo";
           cloudstack_project.Displaytext := "aa" |},
   None).

(** ** Properties *)

(** *** The imported lookup *)

Lemma GetValue_string (opts : types.DriverOptions) (keys : list string) :
  options.GetValueFromDriverOptions opts types.StringType keys
  = options.VString (stringOption opts keys).
Proof.
  unfold options.GetValueFromDriverOptions, stringOption.
  destruct (decide (types.StringType = types.IntType)) as [E|_];
    [discriminate E|].
  destruct (decide (types.StringType = types.StringType)) as [_|N];
    [|contradiction].
  by destruct (options.firstPresent _ keys).
Qed.

Lemma GetValue_int (opts : types.DriverOptions) (keys : list string) :
  options.GetValueFromDriverOptions opts types.IntType keys
  = options.VInt (intOption opts keys).
Proof.
  unfold options.GetValueFromDriverOptions, intOption.
  destruct (decide (types.IntType = types.IntType)) as [_|N];
    [|contradiction].
  by destruct (options.firstPresent _ keys).
Qed.

Lemma firstPresent_None {V : Type} (m : gmap string V) (keys : list string) :
  options.firstPresent m keys = None ↔ ∀ k, k ∈ keys → m !! k = None.
Proof.
  induction keys as [|key rest IH]; simpl.
  - split; [intros _ k Hk; inversion Hk | done].
  - destruct (m !! key) as [v|] eqn:Hkey.
    + split; [done|]. intros H. specialize (H key (list_elem_of_here _ _)).
      congruence.
    + rewrite IH. split.
      * intros H k Hk. apply elem_of_cons in Hk as [->|Hk]; auto.
      * intros H k Hk. apply H. by apply list_elem_of_further.
Qed.

Lemma stringOption_absent (opts : types.DriverOptions) (keys : list string) :
  (∀ k, k ∈ keys → types.StringOptions opts !! k = None) →
  stringOption opts keys = "".
Proof.
  intros H. unfold stringOption.
  by rewrite (proj2 (firstPresent_None _ keys) H).
Qed.

Lemma intOption_absent (opts : types.DriverOptions) (keys : list string) :
  (∀ k, k ∈ keys → types.IntOptions opts !! k = None) →
  intOption opts keys = 0.
Proof.
  intros H. unfold intOption.
  by rewrite (proj2 (firstPresent_None _ keys) H).
Qed.

(** The option names of the fields are the flags the driver declares. *)
Lemma optionName_declared (f : field) (ctx : context.Context) (w : World) :
  ∃ created updated,
    GetDriverCreateOptions ctx w = Returned (created, None) w
    ∧ GetDriverUpdateOptions ctx w = Returned (updated, None) w
    ∧ is_Some ((types.Options created ∪ types.Options updated)
                 !! optionName f).
Proof.
  do 2 eexists. split; [reflexivity|]. split; [reflexivity|].
  destruct f; eexists; reflexivity.
Qed.

(** *** Closed forms of the three functions of [Create] *)

Lemma getStateFromOpts_run (opts : types.DriverOptions) (w : World) :
  getStateFromOpts opts w = Returned (settingsOf opts, None) w.
Proof.
  unfold getStateFromOpts.
  rewrite !GetValue_string, GetValue_int.
  reflexivity.
Qed.

Lemma acsConn_run (c : AcsSettings) : acsConn c = (Some (clientOf c), None).
Proof. reflexivity. Qed.

(** Through a pointer that is not [nil], the extraction is the extraction
    from the bag. *)
Lemma getStateFromOpts_ptr_Some (opts : types.DriverOptions) (w : World) :
  getStateFromOpts_ptr (Some opts) w = getStateFromOpts opts w.
Proof. reflexivity. Qed.

(** Through the [nil] pointer, the first lookup panics. *)
Lemma getStateFromOpts_ptr_nil (w : World) :
  getStateFromOpts_ptr None w
  = Panicked "invalid memory address or nil pointer dereference".
Proof. reflexivity. Qed.

(** The setters of [createInstance] build the request of the
    specification. *)
Lemma request_built (c : AcsSettings) (s : state) :
  cloudstack.SetZoneid
    (cloudstack.SetTemplateid
      (cloudstack.SetServiceofferingid
        (cloudstack.SetProjectid
          (cloudstack.SetNetworkids
            (cloudstack.SetName
              (cloudstack.SetDisplayname
                (cloudstack.NewDeployVirtualMachineParams
                   (ServiceOffering c) (TemplateID c) (ZoneID c))
                (ClusterName s))
              (ClusterName s))
            [NetworkID c])
          (ProjectID c))
        (ServiceOffering c))
      (TemplateID c))
    (ZoneID c)
  = requestOf c s.
Proof.
  unfold requestOf, deployRequest. reflexivity.
Qed.

Section DriverProperties.

Variable DeployVirtualMachine :
  cloudstack.CloudStackClient → cloudstack.DeployVirtualMachineParams →
  option cloudstack.DeployVirtualMachineResponse * option error.

(** The answer of the cloud to the request of a settings value. *)
Let answer (c : AcsSettings) (s : state) :=
  DeployVirtualMachine (clientOf c) (requestOf c s).

Lemma createInstance_run (c : AcsSettings) (s : state) (w : World) :
  createInstance DeployVirtualMachine c s w
  = Returned ((answer c s).1, None) (afterDeploy c s (answer c s).2 w).
Proof.
  unfold createInstance. rewrite acsConn_run. cbv zeta. cbn [deref].
  rewrite request_built.
  unfold mbind, Go_bind, mret, Go_ret, callDeployVirtualMachine, answer.
  destruct (DeployVirtualMachine (clientOf c) (requestOf c s)) as [vm [e|]];
    reflexivity.
Qed.

Lemma Create_run (ctx : context.Context) (opts : types.DriverOptions)
    (info : ptr) (w : World) :
  let s := settingsOf opts in
  let c := AcsSettings_ s in
  let l := fresh (dom (heap w)) in
  Create DeployVirtualMachine ctx opts info w
  = Returned (Some l, None)
      (afterDeploy c s (answer c s).2
         {| stdout := stdout w;
            heap := <[l := zeroClusterInfo]> (heap w);
            requests := requests w |}).
Proof.
  intros s c l. unfold Create.
  unfold mbind at 1. unfold Go_bind at 1.
  rewrite getStateFromOpts_run. cbv beta iota.
  unfold mbind at 1. unfold Go_bind at 1. unfold new. cbv beta iota zeta.
  unfold mbind at 1. unfold Go_bind at 1.
  rewrite createInstance_run. reflexivity.
Qed.

(** *** The stubs *)

(** C5. Whatever the cluster info, the node count, the driver options and
    the snapshot name are, [Remove], [SetClusterSize], [ETCDSave] and
    [ETCDRemoveSnapshot] return an error that is not [nil] and whose
    message is "Not implemented"; they change nothing and never return
    success. *)
Theorem not_implemented_always (ctx : context.Context) (info : ptr)
    (count : option types.NodeCount_) (opts : types.DriverOptions)
    (snapshotName : string) (w : World) :
  let notImplemented (r : outcome (option error)) :=
    ∃ e, r = Returned (Some e) w ∧ Error e = "Not implemented" in
  notImplemented (Remove ctx info w)
  ∧ notImplemented (SetClusterSize ctx info count w)
  ∧ notImplemented (ETCDSave ctx info opts snapshotName w)
  ∧ notImplemented (ETCDRemoveSnapshot ctx info opts snapshotName w).
Proof.
  cbv zeta. repeat split; eexists; split; reflexivity.
Qed.

(** C6. For every cluster-info pointer and every value of the driver
    options, [Update] and [PostCheck] return the pointer they were given,
    with a [nil] error, and leave the world, hence the record the pointer
    refers to, as it was. *)
Theorem Update_PostCheck_pass_through (ctx : context.Context) (info : ptr)
    (opts : types.DriverOptions) (w : World) :
  Update ctx info opts w = Returned (info, None) w
  ∧ PostCheck ctx info w = Returned (info, None) w.
Proof. split; reflexivity. Qed.

(** *** The connection *)

(** C8. For every endpoint, access key and secret key, [acsConn] returns a
    client handle that is not [nil], bound to these three strings, and a
    [nil] error. *)
Theorem acsConn_never_fails (c : AcsSettings) :
  ∃ cs, acsConn c = (Some cs, None)
        ∧ cloudstack.baseURL cs = EndPoint (Config_ c)
        ∧ cloudstack.apiKey cs = Access (Config_ c)
        ∧ cloudstack.secret cs = Secret (Config_ c).
Proof. exists (clientOf c). repeat split. Qed.

(** C9. For every endpoint, access key and secret key, the client of
    [acsConn] is the one [NewClient] builds with the verify-ssl argument
    [false], so it skips the verification of certificates; and whatever
    the option bag holds, the client [Create] sends its request with skips
    it too. *)
Theorem acsConn_skips_verification (c : AcsSettings) :
  (∃ cs, (acsConn c).1 = Some cs
         ∧ cs = cloudstack.NewClient (EndPoint (Config_ c))
                  (Access (Config_ c)) (Secret (Config_ c)) false
         ∧ cloudstack.InsecureSkipVerify cs = true)
  ∧ ∀ ctx opts info w, ∃ r w' cs q,
      Create DeployVirtualMachine ctx opts info w = Returned r w'
      ∧ requests w' = (requests w ++ [(cs, q)])%list
      ∧ cloudstack.InsecureSkipVerify cs = true.
Proof.
  split.
  - eexists. repeat split.
  - intros ctx opts info w. rewrite Create_run.
    do 4 eexists. repeat split.
Qed.

(** *** The capabilities *)

(** C10. The capability map of the driver [NewDriver] returns marks
    get-version, set-version, get-cluster-size and set-cluster-size, and
    holds no other capability. *)
Theorem NewDriver_capabilities (cap : Z) :
  types.CapabilitiesMap (driverCapabilities NewDriver) !! cap
  = if decide (cap ∈ [types.GetVersionCapability;
                      types.SetVersionCapability;
                      types.GetClusterSizeCapability;
                      types.SetClusterSizeCapability])
    then Some true else None.
Proof.
  unfold NewDriver, types.AddCapability. cbn -[lookup insert].
  case_decide as Hin.
  - repeat (apply elem_of_cons in Hin as [->|Hin]; [done|]).
    by apply elem_of_nil in Hin.
  - rewrite !lookup_insert_ne; [apply lookup_empty|..];
      intros <-; apply Hin; repeat constructor.
Qed.

(** *** The extraction of the settings *)

(** C2. For every option bag, [getStateFromOpts] returns a state whose
    CloudStack-specific fields (ssh key pair, project id, private-IP flag,
    service offering, template id, zone id, network id, user data) hold
    their zero values; hence the one request of every [Create] call has
    the empty string as service-offering id, template id, zone id and
    project id, and the one-element list of the empty string as network
    ids, whatever the caller supplied. *)
Theorem cloudstack_fields_never_set (opts : types.DriverOptions) (w : World) :
  (∃ d, getStateFromOpts opts w = Returned (d, None) w
        ∧ SSHKeyPair (AcsSettings_ d) = ""
        ∧ ProjectID (AcsSettings_ d) = ""
        ∧ UsePrivateIP (AcsSettings_ d) = false
        ∧ ServiceOffering (AcsSettings_ d) = ""
        ∧ TemplateID (AcsSettings_ d) = ""
        ∧ ZoneID (AcsSettings_ d) = ""
        ∧ NetworkID (AcsSettings_ d) = ""
        ∧ UserData (AcsSettings_ d) = "")
  ∧ ∀ ctx info, ∃ r w' cs m,
      Create DeployVirtualMachine ctx opts info w = Returned r w'
      ∧ requests w' = (requests w ++ [(cs, {| cloudstack.p := Some m |})])%list
      ∧ m !! "serviceofferingid" = Some (cloudstack.PString "")
      ∧ m !! "templateid" = Some (cloudstack.PString "")
      ∧ m !! "zoneid" = Some (cloudstack.PString "")
      ∧ m !! "projectid" = Some (cloudstack.PString "")
      ∧ m !! "networkids" = Some (cloudstack.PStrings [""]).
Proof.
  split.
  - exists (settingsOf opts). split; [apply getStateFromOpts_run|].
    repeat split.
  - intros ctx info. rewrite Create_run.
    do 4 eexists. split; [reflexivity|]. split; [reflexivity|].
    repeat split.
Qed.

(** C4, amended. For every option bag, [getStateFromOpts] returns without
    error and without a panic; a field (cluster name, description,
    endpoint, access key, secret key, node count) that the bag holds
    neither under its option name nor under the alternate name the code
    looks up next gets the zero value of its type. With the options
    cluster-name "demo", cloudstack-endpoint "http://cs.local",
    cloudstack-access "AK", cloudstack-secret "SK" and no node count, the
    state has the node count 0 and the cluster name "demo". *)
Theorem absent_option_gives_zero :
  (∀ opts f w,
     lacks opts f (optionName f) →
     (∀ k, k ∈ alternateNames f → lacks opts f k) →
     ∃ d, getStateFromOpts opts w = Returned (d, None) w ∧ isZero f d)
  ∧ (∀ opts w, ∃ d, getStateFromOpts opts w = Returned (d, None) w)
  ∧ (∀ w, ∃ d, getStateFromOpts demoOptions w = Returned (d, None) w
               ∧ InitialNodeCount d = 0 ∧ ClusterName d = "demo").
Proof.
  split; [|split].
  - intros opts f w Hname Halt.
    exists (settingsOf opts). split; [apply getStateFromOpts_run|].
    destruct f;
      [apply stringOption_absent .. | apply intOption_absent];
      intros k Hk; apply elem_of_cons in Hk as [->|Hk];
      solve [exact Hname | exact (Halt k Hk)].
  - intros opts w. eexists. apply getStateFromOpts_run.
  - intros w. exists (settingsOf demoOptions).
    split; [apply getStateFromOpts_run|]. split; reflexivity.
Qed.

(** *** The provisioning *)

(** C3. For every settings value and state, the one request
    [createInstance] sends has the cluster name as name and as display
    name, the service offering, the template id and the zone id of the
    settings under their keys, the one-element list of the network id as
    network ids, the project id, and no other key. *)
Theorem createInstance_request (c : AcsSettings) (s : state) (w : World) :
  ∃ r w' cs m,
    createInstance DeployVirtualMachine c s w = Returned r w'
    ∧ requests w' = (requests w ++ [(cs, {| cloudstack.p := Some m |})])%list
    ∧ m !! "name" = Some (cloudstack.PString (ClusterName s))
    ∧ m !! "displayname" = Some (cloudstack.PString (ClusterName s))
    ∧ m !! "serviceofferingid" = Some (cloudstack.PString (ServiceOffering c))
    ∧ m !! "templateid" = Some (cloudstack.PString (TemplateID c))
    ∧ m !! "zoneid" = Some (cloudstack.PString (ZoneID c))
    ∧ m !! "networkids" = Some (cloudstack.PStrings [NetworkID c])
    ∧ m !! "projectid" = Some (cloudstack.PString (ProjectID c))
    ∧ dom m = list_to_set ["name"; "displayname"; "serviceofferingid";
                           "templateid"; "zoneid"; "networkids";
                           "projectid"].
Proof.
  rewrite createInstance_run.
  do 4 eexists. split; [reflexivity|]. split; [reflexivity|].
  repeat split.
Qed.

(** C1. Whenever the cloud answers the request of [createInstance] with
    an error, [createInstance] prints the error on standard output and
    returns the instance descriptor of the answer, [nil] or not, with a
    [nil] error; and a [Create] call that provisions with these settings
    returns a pointer to an empty cluster-info record with a [nil]
    error. *)
Theorem deploy_error_not_surfaced (c : AcsSettings) (s : state)
    (vm : option cloudstack.DeployVirtualMachineResponse) (e : error) :
  DeployVirtualMachine (clientOf c) (requestOf c s) = (vm, Some e) →
  (∀ w, createInstance DeployVirtualMachine c s w
        = Returned (vm, None)
            {| stdout := stdout w +:+ "Error creating the new instance: "
                         +:+ Error e +:+ newline;
               heap := heap w;
               requests := requests w ++ [(clientOf c, requestOf c s)] |})
  ∧ ∀ ctx opts info w,
      getStateFromOpts opts w = Returned (s, None) w →
      AcsSettings_ s = c →
      ∃ l w', Create DeployVirtualMachine ctx opts info w
              = Returned (Some l, None) w'
              ∧ heap w' !! l = Some zeroClusterInfo
              ∧ stdout w' = stdout w +:+ "Error creating the new instance: "
                            +:+ Error e +:+ newline.
Proof.
  intros Hcloud. split.
  - intros w. rewrite createInstance_run. unfold answer.
    rewrite Hcloud. reflexivity.
  - intros ctx opts info w Hstate Hc.
    rewrite getStateFromOpts_run in Hstate.
    injection Hstate as Hs. subst s c.
    rewrite Create_run. unfold answer. cbv zeta. rewrite Hcloud.
    do 2 eexists. split; [reflexivity|]. split; [|reflexivity].
    apply lookup_insert_eq.
Qed.

Lemma Create_ptr_Some (ctx : context.Context) (opts : types.DriverOptions)
    (info : ptr) (w : World) :
  Create_ptr DeployVirtualMachine ctx (Some opts) info w
  = Create DeployVirtualMachine ctx opts info w.
Proof.
  unfold Create_ptr, Create.
  unfold mbind at 1 3. unfold Go_bind at 1 3.
  by rewrite getStateFromOpts_ptr_Some.
Qed.

(** C7, amended. For every context, every pointer that is not [nil] to an
    option bag, every cluster-info argument and every world, and whatever
    the cloud answers: [getStateFromOpts] returns a [nil] error, [acsConn]
    returns a [nil] error, [createInstance] returns a [nil] error, and
    [Create] returns a [nil] error with a pointer to a cell that was not in
    the heap and now holds the empty cluster-info record, the heap being
    otherwise as it was; the answer of the cloud shows on standard output
    only, and the result is the same for every cluster-info argument. *)
Theorem Create_never_fails (ctx : context.Context)
    (opts : types.DriverOptions) (info : ptr) (w : World) :
  (∃ d, getStateFromOpts_ptr (Some opts) w = Returned (d, None) w)
  ∧ (∀ c, (acsConn c).2 = None)
  ∧ (∀ c s w0, ∃ vm w1,
       createInstance DeployVirtualMachine c s w0 = Returned (vm, None) w1)
  ∧ (∃ l w', Create_ptr DeployVirtualMachine ctx (Some opts) info w
             = Returned (Some l, None) w'
             ∧ (l ∉ dom (heap w))
             ∧ heap w' = <[l := zeroClusterInfo]> (heap w)
             ∧ heap w' !! l = Some zeroClusterInfo
             ∧ stdout w' = stdout w +:+ printed (answer (AcsSettings_ (settingsOf opts)) (settingsOf opts)).2)
  ∧ (∀ info', Create_ptr DeployVirtualMachine ctx (Some opts) info' w
              = Create_ptr DeployVirtualMachine ctx (Some opts) info w)
  ∧ Create_ptr DeployVirtualMachine ctx (Some opts) info w
    = Create DeployVirtualMachine ctx opts info w.
Proof.
  split.
  { eexists. rewrite getStateFromOpts_ptr_Some. apply getStateFromOpts_run. }
  split; [reflexivity|].
  split; [intros c s w0; rewrite createInstance_run; eauto|].
  split; [|split].
  - rewrite Create_ptr_Some, Create_run. cbv zeta.
    do 2 eexists. split; [reflexivity|].
    pose proof (is_fresh (dom (heap w))) as Hfresh.
    split; [exact Hfresh|]. split; [reflexivity|].
    split; [apply lookup_insert_eq|reflexivity].
  - intros info'. by rewrite !Create_ptr_Some, !Create_run.
  - apply Create_ptr_Some.
Qed.

End DriverProperties.

(** ** Instances *)

(** The hypothesis of C1 holds for the cloud that refuses every request;
    there [createInstance] returns [nil, nil] and [Create] a new empty
    record. *)
Lemma deploy_error_not_surfaced_witness :
  let s := settingsOf demoOptions in
  let c := AcsSettings_ s in
  refusingCloud (clientOf c) (requestOf c s)
  = (None, Some {| Error := "zone not found" |})
  ∧ createInstance refusingCloud c s emptyWorld
    = Returned (None, None)
        {| stdout := "Error creating the new instance: zone not found"
                     +:+ newline;
           heap := ∅;
           requests := [(clientOf c, requestOf c s)] |}
  ∧ ∃ l w', Create refusingCloud context.Background demoOptions None emptyWorld
            = Returned (Some l, None) w'
            ∧ heap w' !! l = Some zeroClusterInfo
            ∧ stdout w' = "Error creating the new instance: zone not found"
                          +:+ newline.
Proof.
  intros s c.
  pose proof (deploy_error_not_surfaced refusingCloud c s None
                {| Error := "zone not found" |} eq_refl) as [Hinst Hcreate].
  split; [reflexivity|]. split.
  - exact (Hinst emptyWorld).
  - apply (Hcreate context.Background demoOptions None emptyWorld);
      reflexivity.
Defined.

(** The hypotheses of C4 hold for the node count of the bag of the
    scenario. *)
Lemma absent_option_gives_zero_witness :
  lacks demoOptions FInitialNodeCount (optionName FInitialNodeCount)
  ∧ (∀ k, k ∈ alternateNames FInitialNodeCount →
          lacks demoOptions FInitialNodeCount k)
  ∧ ∃ d, getStateFromOpts demoOptions emptyWorld = Returned (d, None) emptyWorld
         ∧ isZero FInitialNodeCount d.
Proof.
  assert (lacks demoOptions FInitialNodeCount (optionName FInitialNodeCount))
    as Hname by reflexivity.
  assert (∀ k, k ∈ alternateNames FInitialNodeCount →
               lacks demoOptions FInitialNodeCount k)
    as Halt by (intros k _; reflexivity).
  split; [exact Hname|]. split; [exact Halt|].
  exact (proj1 absent_option_gives_zero demoOptions FInitialNodeCount
           emptyWorld Hname Halt).
Defined.

(** C4 as stated fails: a bag without the option cluster-name, which names
    the cluster under the alternate name, gives a cluster name that is not
    the empty string. *)
Lemma absent_option_counterexample :
  types.StringOptions legacyOptions !! "cluster-name" = None
  ∧ ∃ d, getStateFromOpts legacyOptions emptyWorld
         = Returned (d, None) emptyWorld
         ∧ ClusterName d = "legacy"
         ∧ ClusterName d ≠ "".
Proof.
  split; [reflexivity|].
  exists (settingsOf legacyOptions).
  split; [apply getStateFromOpts_run|].
  split; [reflexivity|discriminate].
Qed.

(** C7 as stated fails: with the [nil] pointer as option bag, and a cloud
    that would accept every request, [Create] panics at the first lookup of
    [getStateFromOpts]; it returns nothing, no [nil] error either, and asks
    the cloud for nothing. *)
Lemma Create_nil_bag_counterexample :
  getStateFromOpts_ptr None emptyWorld
  = Panicked "invalid memory address or nil pointer dereference"
  ∧ Create_ptr acceptingCloud context.Background None None emptyWorld
    = Panicked "invalid memory address or nil pointer dereference"
  ∧ ¬ ∃ r w', Create_ptr acceptingCloud context.Background None None
                emptyWorld
              = Returned r w'.
Proof.
  split; [reflexivity|]. split; [reflexivity|].
  intros (r & w' & H). discriminate H.
Qed.

(** ** Further properties of the extraction *)

Lemma stringOption_head (opts : types.DriverOptions) (key : string)
    (rest : list string) (v : string) :
  types.StringOptions opts !! key = Some v →
  stringOption opts (key :: rest) = v.
Proof. intros H. unfold stringOption. simpl. by rewrite H. Qed.

Lemma stringOption_next (opts : types.DriverOptions) (key : string)
    (rest : list string) :
  types.StringOptions opts !! key = None →
  stringOption opts (key :: rest) = stringOption opts rest.
Proof. intros H. unfold stringOption. simpl. by rewrite H. Qed.

Lemma intOption_head (opts : types.DriverOptions) (key : string)
    (rest : list string) (v : Z) :
  types.IntOptions opts !! key = Some v →
  intOption opts (key :: rest) = v.
Proof. intros H. unfold intOption. simpl. by rewrite H. Qed.

Lemma intOption_next (opts : types.DriverOptions) (key : string)
    (rest : list string) :
  types.IntOptions opts !! key = None →
  intOption opts (key :: rest) = intOption opts rest.
Proof. intros H. unfold intOption. simpl. by rewrite H. Qed.

Lemma stringOption_ext (opts opts' : types.DriverOptions)
    (keys : list string) :
  (∀ k, k ∈ keys →
        types.StringOptions opts !! k = types.StringOptions opts' !! k) →
  stringOption opts keys = stringOption opts' keys.
Proof.
  unfold stringOption. induction keys as [|key rest IH]; intros H; [done|].
  simpl. rewrite <- (H key) by apply list_elem_of_here.
  destruct (types.StringOptions opts !! key); [done|].
  apply IH. intros k Hk. apply H. by apply list_elem_of_further.
Qed.

Lemma intOption_ext (opts opts' : types.DriverOptions) (keys : list string) :
  (∀ k, k ∈ keys →
        types.IntOptions opts !! k = types.IntOptions opts' !! k) →
  intOption opts keys = intOption opts' keys.
Proof.
  unfold intOption. induction keys as [|key rest IH]; intros H; [done|].
  simpl. rewrite <- (H key) by apply list_elem_of_here.
  destruct (types.IntOptions opts !! key); [done|].
  apply IH. intros k Hk. apply H. by apply list_elem_of_further.
Qed.

Lemma held_string (opts : types.DriverOptions) (f : field) (name : string)
    (v : options.value) :
  f ≠ FInitialNodeCount → held opts f name = Some v →
  ∃ x, types.StringOptions opts !! name = Some x ∧ v = options.VString x.
Proof.
  intros Hf H. destruct f; try done; simpl in H;
    destruct (types.StringOptions opts !! name) as [x|]; simplify_eq/=; eauto.
Qed.

Lemma held_None (opts : types.DriverOptions) (f : field) (name : string) :
  held opts f name = None ↔ lacks opts f name.
Proof.
  destruct f; unfold held, lacks; apply fmap_None.
Qed.

(** X1. A value the bag holds for a field under its option name, in the
    map of the field's type, is the value of the field in the state,
    whatever the bag holds under the alternate name. *)
Theorem option_name_is_read (opts : types.DriverOptions) (f : field)
    (v : options.value) (w : World) :
  held opts f (optionName f) = Some v →
  ∃ d, getStateFromOpts opts w = Returned (d, None) w ∧ readField f d = v.
Proof.
  intros H. exists (settingsOf opts). split; [apply getStateFromOpts_run|].
  destruct f;
    try (apply held_string in H as (x & Hx & ->); [|done];
         simpl; f_equal; by apply stringOption_head).
  simpl in H. destruct (types.IntOptions opts !! "node-count") as [x|] eqn:Hx;
    simplify_eq/=. f_equal. by apply intOption_head.
Qed.

(** X2. When the bag holds nothing for a field under its option name, a
    value it holds under the alternate name is the value of the field. *)
Theorem alternate_name_is_read (opts : types.DriverOptions) (f : field)
    (alt : string) (v : options.value) (w : World) :
  alt ∈ alternateNames f →
  held opts f (optionName f) = None →
  held opts f alt = Some v →
  ∃ d, getStateFromOpts opts w = Returned (d, None) w ∧ readField f d = v.
Proof.
  intros Halt Hname H. exists (settingsOf opts).
  split; [apply getStateFromOpts_run|].
  apply held_None in Hname.
  destruct f; simpl in Halt;
    try (by apply elem_of_nil in Halt);
    apply elem_of_cons in Halt as [->|Halt];
    try (by apply elem_of_nil in Halt).
  1-3: apply held_string in H as (x & Hx & ->); [|done];
       simpl; f_equal; rewrite stringOption_next by exact Hname;
       by apply stringOption_head.
  simpl in H.
  destruct (types.IntOptions opts !! "InitialNodeCount") as [x|] eqn:Hx;
    simplify_eq/=. f_equal.
  rewrite intOption_next by exact Hname. by apply intOption_head.
Qed.

(** X3. The state depends on the bag through the ten names of the six
    fields only: two bags that hold the same under each of them, in the map
    of the field's type, give the same state. Every other option, and a
    value of another type under one of the names, is ignored. *)
Theorem unknown_options_ignored (opts opts' : types.DriverOptions)
    (w : World) :
  (∀ f name, name ∈ names f → held opts f name = held opts' f name) →
  getStateFromOpts opts w = getStateFromOpts opts' w.
Proof.
  intros H. rewrite !getStateFromOpts_run. do 2 f_equal.
  assert (∀ f, f ≠ FInitialNodeCount →
            stringOption opts (names f) = stringOption opts' (names f))
    as Hs.
  { intros f Hf. apply stringOption_ext. intros k Hk.
    specialize (H f k Hk). destruct f; try done; simpl in H;
      destruct (types.StringOptions opts !! k),
               (types.StringOptions opts' !! k); simplify_eq/=; done. }
  assert (intOption opts (names FInitialNodeCount)
          = intOption opts' (names FInitialNodeCount)) as Hi.
  { apply intOption_ext. intros k Hk.
    specialize (H FInitialNodeCount k Hk). simpl in H.
    destruct (types.IntOptions opts !! k), (types.IntOptions opts' !! k);
      simplify_eq/=; done. }
  unfold settingsOf.
  pose proof (Hs FClusterName) as H1. pose proof (Hs FDescription) as H2.
  pose proof (Hs FEndPoint) as H3. pose proof (Hs FAccess) as H4.
  pose proof (Hs FSecret) as H5.
  unfold names in *. simpl in *.
  rewrite H1, H2, H3, H4, H5, Hi by done. reflexivity.
Qed.


(** ** Further properties of the provisioning *)

Section ProvisioningProperties.

Variable DeployVirtualMachine :
  cloudstack.CloudStackClient → cloudstack.DeployVirtualMachineParams →
  option cloudstack.DeployVirtualMachineResponse * option error.

(** [Create] reads the settings as these two functions of the bag. *)
Lemma clientOf_settings_ext (opts opts' : types.DriverOptions) :
  (∀ k, k ∈ namesOfCreate →
        types.StringOptions opts !! k = types.StringOptions opts' !! k) →
  clientOf (AcsSettings_ (settingsOf opts))
  = clientOf (AcsSettings_ (settingsOf opts'))
  ∧ requestOf (AcsSettings_ (settingsOf opts)) (settingsOf opts)
    = requestOf (AcsSettings_ (settingsOf opts')) (settingsOf opts').
Proof.
  intros H.
  assert (∀ keys, keys ⊆ namesOfCreate →
            stringOption opts keys = stringOption opts' keys) as Hs.
  { intros keys Hkeys. apply stringOption_ext. intros k Hk.
    apply H, Hkeys, Hk. }
  unfold clientOf, requestOf, settingsOf. cbn [AcsSettings_ Config_ EndPoint
    Access Secret ClusterName ServiceOffering TemplateID ZoneID NetworkID
    ProjectID].
  rewrite (Hs ["cloudstack-endpoint"; "CloudstackEndPoint"]),
          (Hs ["cloudstack-access"]), (Hs ["cloudstack-secret"]),
          (Hs ["cluster-name"; "ClusterName"]);
    [done|..];
    intros k Hk;
    repeat (apply elem_of_cons in Hk as [->|Hk];
            [by apply (bool_decide_unpack _)|]);
    by apply elem_of_nil in Hk.
Qed.

(** X5. Whenever the cloud answers the request of [createInstance] without
    an error, [createInstance] prints "Success create instances", without a
    line break, and returns the descriptor of the answer with a [nil]
    error; the heap is as it was and the request is the only one sent. *)
Theorem deploy_success_reported (c : AcsSettings) (s : state)
    (vm : option cloudstack.DeployVirtualMachineResponse) (w : World) :
  DeployVirtualMachine (clientOf c) (requestOf c s) = (vm, None) →
  createInstance DeployVirtualMachine c s w
  = Returned (vm, None)
      {| stdout := stdout w +:+ "Success create instances";
         heap := heap w;
         requests := requests w ++ [(clientOf c, requestOf c s)] |}.
Proof.
  intros Hcloud. rewrite createInstance_run. cbv zeta.
  rewrite Hcloud. reflexivity.
Qed.

(** X6. [createInstance] uses the settings through the connection
    configuration, the three ids, the network id and the project id, and
    the state through the cluster name: the ssh key pair, the user data, the
    private-IP flag, the description and the node count never reach the
    cloud or the result. *)
Theorem createInstance_ignores_the_rest (c c' : AcsSettings) (s s' : state)
    (w : World) :
  Config_ c = Config_ c' →
  ServiceOffering c = ServiceOffering c' →
  TemplateID c = TemplateID c' →
  ZoneID c = ZoneID c' →
  NetworkID c = NetworkID c' →
  ProjectID c = ProjectID c' →
  ClusterName s = ClusterName s' →
  createInstance DeployVirtualMachine c s w
  = createInstance DeployVirtualMachine c' s' w.
Proof.
  intros Hk Ho Ht Hz Hn Hp Hname. rewrite !createInstance_run. cbv zeta.
  unfold afterDeploy, clientOf, requestOf.
  by rewrite Hk, Ho, Ht, Hz, Hn, Hp, Hname.
Qed.

(** X7. What a [Create] call does depends on the bag through the string
    options cluster-name, ClusterName, cloudstack-endpoint,
    CloudstackEndPoint, cloudstack-access and cloudstack-secret only: the
    description, the node count and every other option change neither the
    request, nor the output, nor the result. *)
Theorem Create_ignores_the_rest (ctx ctx' : context.Context)
    (opts opts' : types.DriverOptions) (info info' : ptr) (w : World) :
  (∀ k, k ∈ namesOfCreate →
        types.StringOptions opts !! k = types.StringOptions opts' !! k) →
  Create DeployVirtualMachine ctx opts info w
  = Create DeployVirtualMachine ctx' opts' info' w.
Proof.
  intros H. apply clientOf_settings_ext in H as [Hclient Hrequest].
  rewrite !Create_run. cbv zeta. unfold afterDeploy.
  by rewrite Hclient, Hrequest.
Qed.

(** X8. The endpoint, the access key, the secret key and the cluster name
    the bag holds under their option names are the ones [Create] uses: its
    request goes out through the client [NewClient] builds from the three
    strings, and asks for an instance with the cluster name as name and as
    display name. *)
Theorem Create_uses_the_options (ctx : context.Context)
    (opts : types.DriverOptions) (info : ptr) (w : World)
    (endpoint access secretkey name : string) :
  types.StringOptions opts !! "cloudstack-endpoint" = Some endpoint →
  types.StringOptions opts !! "cloudstack-access" = Some access →
  types.StringOptions opts !! "cloudstack-secret" = Some secretkey →
  types.StringOptions opts !! "cluster-name" = Some name →
  ∃ l w' m,
    Create DeployVirtualMachine ctx opts info w = Returned (Some l, None) w'
    ∧ requests w'
      = (requests w
         ++ [(cloudstack.NewClient endpoint access secretkey false,
              {| cloudstack.p := Some m |})])%list
    ∧ m !! "name" = Some (cloudstack.PString name)
    ∧ m !! "displayname" = Some (cloudstack.PString name).
Proof.
  intros He Ha Hs Hn. rewrite Create_run. cbv zeta.
  do 3 eexists. split; [reflexivity|].
  unfold afterDeploy, clientOf, requestOf, deployRequest, settingsOf.
  cbn [requests AcsSettings_ Config_ EndPoint Access Secret ClusterName].
  rewrite (stringOption_head _ _ _ _ He), (stringOption_head _ _ _ _ Ha),
          (stringOption_head _ _ _ _ Hs), (stringOption_head _ _ _ _ Hn).
  split; [reflexivity|]. split; reflexivity.
Qed.

(** X9. [Create] is not idempotent: two calls in a row with the same bag
    send the same request twice and return two different pointers, each to
    an empty cluster-info record. *)
Theorem Create_twice (ctx : context.Context) (opts : types.DriverOptions)
    (info info' : ptr) (w : World) :
  ∃ l1 w1 l2 w2 request,
    Create DeployVirtualMachine ctx opts info w = Returned (Some l1, None) w1
    ∧ Create DeployVirtualMachine ctx opts info' w1
      = Returned (Some l2, None) w2
    ∧ l1 ≠ l2
    ∧ requests w2 = (requests w ++ [request; request])%list
    ∧ heap w2 !! l1 = Some zeroClusterInfo
    ∧ heap w2 !! l2 = Some zeroClusterInfo.
Proof.
  do 5 eexists. split; [apply Create_run|]. split; [apply Create_run|].
  cbv zeta. cbn [afterDeploy heap requests].
  set (l1 := fresh (dom (heap w))).
  set (l2 := fresh (dom (<[l1 := zeroClusterInfo]> (heap w)))).
  assert (l1 ≠ l2) as Hne.
  { intros Heq. apply (is_fresh (dom (<[l1 := zeroClusterInfo]> (heap w)))).
    fold l2. rewrite <- Heq. rewrite dom_insert_L. set_solver. }
  split; [exact Hne|]. split; [by rewrite <- app_assoc|]. split.
  - rewrite lookup_insert_ne by done. apply lookup_insert_eq.
  - apply lookup_insert_eq.
Qed.

(** X10. [Create] leaves the records of the heap alone: a cell the heap
    has, the one its cluster-info argument points to among them, keeps its
    record, and the pointer [Create] returns is not a pointer to it. *)
Theorem Create_keeps_the_heap (ctx : context.Context)
    (opts : types.DriverOptions) (info : ptr) (w : World) (l0 : loc) :
  l0 ∈ dom (heap w) →
  ∃ l w', Create DeployVirtualMachine ctx opts info w
          = Returned (Some l, None) w'
          ∧ l ≠ l0
          ∧ heap w' !! l0 = heap w !! l0.
Proof.
  intros Hl0. do 2 eexists. split; [apply Create_run|].
  cbv zeta. cbn [afterDeploy heap].
  assert (fresh (dom (heap w)) ≠ l0) as Hne.
  { intros Heq. apply (is_fresh (dom (heap w))). by rewrite Heq. }
  split; [exact Hne|]. by apply lookup_insert_ne.
Qed.


End ProvisioningProperties.

(** ** Further properties of the stubs and of the project *)

Section StubProperties.

Variable DeployVirtualMachine :
  cloudstack.CloudStackClient → cloudstack.DeployVirtualMachineParams →
  option cloudstack.DeployVirtualMachineResponse * option error.

Variable CreateProject :
  cloudstack.CloudStackClient → cloudstack_project.CreateProjectParams →
  option cloudstack_project.CreateProjectResponse * option error.

Variable K8SCapabilities : Type.
Variable zeroK8SCapabilities : K8SCapabilities.

Lemma createProject_run (c : AcsSettings) (s : state) (w : World) :
  createProject CreateProject c s w
  = Returned
      (match CreateProject (clientOf c)
               (cloudstack_project.NewCreateProjectParams "aa" (ClusterName s))
       with
       | (_, Some e) => (None, Some e)
       | (p, None) => (p, None)
       end) w.
Proof.
  unfold createProject. rewrite acsConn_run. cbv zeta. cbn [deref].
  unfold mbind, Go_bind, mret, Go_ret, callCreateProject.
  destruct (CreateProject _ _) as [p [e|]]; reflexivity.
Qed.

(** X12. The driver is built with set-cluster-size marked in its capability
    map, yet [SetClusterSize] returns an error on every input;
    [GetCapabilities] reports a map with no capability at all, not the one
    the driver was built with; and [GetK8SCapabilities] reports the zero
    value whatever the option bag holds. *)
Theorem capabilities_not_backed (ctx : context.Context) (info : ptr)
    (count : option types.NodeCount_) (opts : types.DriverOptions)
    (cap : Z) (w : World) :
  types.CapabilitiesMap (driverCapabilities NewDriver)
    !! types.SetClusterSizeCapability = Some true
  ∧ (∃ e, SetClusterSize ctx info count w = Returned (Some e) w)
  ∧ (∃ caps, GetCapabilities ctx w = Returned (caps, None) w
             ∧ types.CapabilitiesMap caps !! cap = None
             ∧ caps ≠ driverCapabilities NewDriver)
  ∧ GetK8SCapabilities K8SCapabilities zeroK8SCapabilities ctx opts w
    = Returned (Some zeroK8SCapabilities, None) w.
Proof.
  split; [reflexivity|]. split; [eexists; reflexivity|].
  split; [|reflexivity].
  eexists. split; [reflexivity|]. split; [apply lookup_empty|].
  intros Heq.
  assert (types.CapabilitiesMap (driverCapabilities NewDriver)
            !! types.SetClusterSizeCapability = None) as Hnone
    by (rewrite <- Heq; apply lookup_empty).
  discriminate Hnone.
Qed.

(** X13. Setting does not change what getting returns: after [SetVersion]
    with any version, [GetVersion] returns the empty version; and after a
    [Create] call with any node count in the bag, [GetClusterSize] on the
    pointer [Create] returned reports the count 0. All errors are [nil]. *)
Theorem getters_ignore_what_was_set (ctx : context.Context) (info : ptr)
    (version : option types.KubernetesVersion) (opts : types.DriverOptions)
    (w : World) :
  (err ← SetVersion ctx info version;
   '(got, err') ← GetVersion ctx info;
   mret (err, got, err')) w
  = Returned (None, Some {| types.Version_ := "" |}, None) w
  ∧ ∃ w', ('(created, err) ← Create DeployVirtualMachine ctx opts info;
           '(size, err') ← GetClusterSize ctx created;
           mret (err, size, err')) w
          = Returned (None, Some {| types.Count := 0 |}, None) w'.
Proof.
  split; [reflexivity|].
  eexists. unfold mbind at 1. unfold Go_bind at 1. rewrite Create_run.
  reflexivity.
Qed.

(** X14. Whatever the snapshot name, [ETCDSave] fails while [ETCDRestore]
    reports success: restoring a snapshot, also right after the attempt to
    save it failed, returns a [nil] error without a request to the cloud,
    an output or a change of the heap. [RemoveLegacyServiceAccount] reports
    success in the same way. *)
Theorem restore_succeeds_without_effect (ctx : context.Context) (info : ptr)
    (opts : types.DriverOptions) (snapshotName : string) (w : World) :
  (∃ e, (saved ← ETCDSave ctx info opts snapshotName;
         restored ← ETCDRestore ctx info opts snapshotName;
         mret (saved, restored)) w
        = Returned (Some e, None) w)
  ∧ ETCDRestore ctx info opts snapshotName w = Returned None w
  ∧ RemoveLegacyServiceAccount ctx info w = Returned None w.
Proof. split; [eexists; reflexivity|]. split; reflexivity. Qed.

(** X15. [createProject] surfaces the failure [createInstance] hides: when
    the cloud answers the project request, named after the cluster and with
    the display text "aa", with an error, [createProject] returns that
    error with a [nil] descriptor, also when the answer had a
    descriptor. *)
Theorem createProject_surfaces_error (c : AcsSettings) (s : state)
    (p : option cloudstack_project.CreateProjectResponse) (e : error)
    (w : World) :
  CreateProject (clientOf c)
    (cloudstack_project.NewCreateProjectParams "aa" (ClusterName s))
  = (p, Some e) →
  createProject CreateProject c s w = Returned (None, Some e) w.
Proof. intros H. rewrite createProject_run, H. reflexivity. Qed.

(** X16. When the cloud answers the project request without an error,
    [createProject] returns the descriptor of the answer with a [nil]
    error, and prints nothing. *)
Theorem createProject_returns_project (c : AcsSettings) (s : state)
    (p : option cloudstack_project.CreateProjectResponse) (w : World) :
  CreateProject (clientOf c)
    (cloudstack_project.NewCreateProjectParams "aa" (ClusterName s))
  = (p, None) →
  createProject CreateProject c s w = Returned (p, None) w.
Proof. intros H. rewrite createProject_run, H. reflexivity. Qed.

(** X17. [createProject] uses the connection configuration and the cluster
    name only: the description of the state never becomes the display text
    of the project, and no other setting reaches the request. *)
Theorem createProject_ignores_description (c c' : AcsSettings)
    (s s' : state) (w : World) :
  Config_ c = Config_ c' →
  ClusterName s = ClusterName s' →
  createProject CreateProject c s w = createProject CreateProject c' s' w.
Proof.
  intros Hk Hname. rewrite !createProject_run. unfold clientOf.
  by rewrite Hk, Hname.
Qed.

End StubProperties.

(** ** Instances of the further properties *)

(** X1 at a bag that holds the node count 3 under the option name and 5
    under the alternate name: the state has 3. *)
Lemma option_name_is_read_witness :
  held sizedOptions FInitialNodeCount (optionName FInitialNodeCount)
  = Some (options.VInt 3)
  ∧ ∃ d, getStateFromOpts sizedOptions emptyWorld
         = Returned (d, None) emptyWorld
         ∧ readField FInitialNodeCount d = options.VInt 3.
Proof.
  split; [reflexivity|].
  apply (option_name_is_read sizedOptions FInitialNodeCount).
  reflexivity.
Defined.

(** X2 at the bag that names the cluster under the alternate name only. *)
Lemma alternate_name_is_read_witness :
  "ClusterName" ∈ alternateNames FClusterName
  ∧ held legacyOptions FClusterName (optionName FClusterName) = None
  ∧ held legacyOptions FClusterName "ClusterName"
    = Some (options.VString "legacy")
  ∧ ∃ d, getStateFromOpts legacyOptions emptyWorld
         = Returned (d, None) emptyWorld
         ∧ readField FClusterName d = options.VString "legacy".
Proof.
  assert ("ClusterName" ∈ alternateNames FClusterName) as Halt
    by apply list_elem_of_here.
  split; [exact Halt|]. split; [reflexivity|]. split; [reflexivity|].
  apply (alternate_name_is_read legacyOptions FClusterName "ClusterName");
    [exact Halt|reflexivity|reflexivity].
Defined.

(** X3 at the bag of the scenario and the same bag with a boolean option,
    a string-list option, an unknown string option and an integer under the
    name cluster-name. *)
Lemma unknown_options_ignored_witness :
  (∀ f name, name ∈ names f →
             held demoOptions f name = held noisyOptions f name)
  ∧ getStateFromOpts demoOptions emptyWorld
    = getStateFromOpts noisyOptions emptyWorld.
Proof.
  assert (∀ f name, name ∈ names f →
                    held demoOptions f name = held noisyOptions f name)
    as Hsame.
  { intros f name Hname. destruct f; unfold names in Hname; simpl in Hname;
      repeat (apply elem_of_cons in Hname as [->|Hname]; [reflexivity|]);
      by apply elem_of_nil in Hname. }
  split; [exact Hsame|].
  apply (unknown_options_ignored demoOptions noisyOptions emptyWorld Hsame).
Defined.

(** X5 at the cloud that accepts every request. *)
Lemma deploy_success_reported_witness :
  let c := cloudSettings "key" "data" true in
  let s := settingsOf demoOptions in
  acceptingCloud (clientOf c) (requestOf c s)
  = ((acceptingCloud (clientOf c) (requestOf c s)).1, None)
  ∧ createInstance acceptingCloud c s emptyWorld
    = Returned ((acceptingCloud (clientOf c) (requestOf c s)).1, None)
        {| stdout := "Success create instances";
           heap := ∅;
           requests := [(clientOf c, requestOf c s)] |}.
Proof.
  intros c s. split; [reflexivity|].
  apply (deploy_success_reported acceptingCloud c s _ emptyWorld).
  reflexivity.
Defined.

(** X6 at two settings that differ in the ssh key pair, the user data and
    the private-IP flag, and two states that differ in the description and
    the node count. *)
Lemma createInstance_ignores_the_rest_witness :
  let c := cloudSettings "key" "data" true in
  let c' := cloudSettings "" "" false in
  let s := settingsOf demoOptions in
  let s' := settingsOf sizedOptions in
  c ≠ c' ∧ s ≠ s'
  ∧ createInstance refusingCloud c s emptyWorld
    = createInstance refusingCloud c' s' emptyWorld.
Proof.
  intros c c' s s'. split; [discriminate|]. split; [discriminate|].
  apply (createInstance_ignores_the_rest refusingCloud c c' s s' emptyWorld);
    reflexivity.
Defined.

(** X7 at the bag of the scenario and the same bag with a description and
    a node count. *)
Lemma Create_ignores_the_rest_witness :
  (∀ k, k ∈ namesOfCreate →
        types.StringOptions demoOptions !! k
        = types.StringOptions sizedOptions !! k)
  ∧ Create acceptingCloud context.Background demoOptions None emptyWorld
    = Create acceptingCloud context.TODO sizedOptions (Some 1%positive)
        emptyWorld.
Proof.
  assert (∀ k, k ∈ namesOfCreate →
               types.StringOptions demoOptions !! k
               = types.StringOptions sizedOptions !! k) as Hsame.
  { intros k Hk. unfold namesOfCreate, names in Hk. simpl in Hk.
    repeat (apply elem_of_cons in Hk as [->|Hk]; [reflexivity|]).
    by apply elem_of_nil in Hk. }
  split; [exact Hsame|].
  apply (Create_ignores_the_rest acceptingCloud context.Background
           context.TODO demoOptions sizedOptions None (Some 1%positive)
           emptyWorld Hsame).
Defined.

(** X8 at the bag of the scenario. *)
Lemma Create_uses_the_options_witness :
  ∃ l w' m,
    Create refusingCloud context.Background demoOptions None emptyWorld
    = Returned (Some l, None) w'
    ∧ requests w'
      = [(cloudstack.NewClient "http://cs.local" "AK" "SK" false,
          {| cloudstack.p := Some m |})]
    ∧ m !! "name" = Some (cloudstack.PString "demo")
    ∧ m !! "displayname" = Some (cloudstack.PString "demo").
Proof.
  apply (Create_uses_the_options refusingCloud context.Background demoOptions
           None emptyWorld "http://cs.local" "AK" "SK" "demo");
    reflexivity.
Defined.

(** X10 at a heap with one cell, to which the argument points. *)
Lemma Create_keeps_the_heap_witness :
  1%positive ∈ dom (heap oneCellWorld)
  ∧ ∃ l w', Create acceptingCloud context.Background demoOptions
              (Some 1%positive) oneCellWorld
            = Returned (Some l, None) w'
            ∧ l ≠ 1%positive
            ∧ heap w' !! 1%positive = heap oneCellWorld !! 1%positive.
Proof.
  assert (1%positive ∈ dom (heap oneCellWorld)) as Hcell
    by (apply elem_of_dom; eexists; reflexivity).
  split; [exact Hcell|].
  apply (Create_keeps_the_heap acceptingCloud context.Background demoOptions
           (Some 1%positive) oneCellWorld 1%positive Hcell).
Defined.

(** X15 at a cloud that answers with a descriptor and an error: the
    descriptor is dropped. *)
Lemma createProject_surfaces_error_witness :
  let c := cloudSettings "key" "data" true in
  let s := settingsOf demoOptions in
  (refusingProjects (clientOf c)
     (cloudstack_project.NewCreateProjectParams "aa" (ClusterName s))).1
  ≠ None
  ∧ createProject refusingProjects c s emptyWorld
    = Returned (None, Some {| Error := "quota exceeded" |}) emptyWorld.
Proof.
  intros c s. split; [discriminate|].
  eapply (createProject_surfaces_error refusingProjects c s).
  reflexivity.
Defined.

(** X16 at a cloud that accepts the project. *)
Lemma createProject_returns_project_witness :
  let c := cloudSettings "key" "data" true in
  let s := settingsOf demoOptions in
  ∃ p, createProject acceptingProjects c s emptyWorld
       = Returned (Some p, None) emptyWorld.
Proof.
  intros c s. eexists.
  eapply (createProject_returns_project acceptingProjects c s).
  reflexivity.
Defined.

(** X17 at two states that differ in the description. *)
Lemma createProject_ignores_description_witness :
  let c := cloudSettings "key" "data" true in
  let s := settingsOf demoOptions in
  let s' := settingsOf sizedOptions in
  Description s ≠ Description s'
  ∧ createProject acceptingProjects c s emptyWorld
    = createProject acceptingProjects c s' emptyWorld.
Proof.
  intros c s s'. split; [discriminate|].
  apply (createProject_ignores_description acceptingProjects c c s s'
           emptyWorld); reflexivity.
Defined.
